(** * logfire.dash: the query and display layer of the "Explore" page

    A shallow embedding of [src/logfire/dash.py].  The module keeps four
    globals and one memoized function; its functions are modelled in a
    state-and-exception monad over those globals, the outside world the
    collaborators read, and a log of the calls made to the collaborators. *)

From Stdlib Require Import String Ascii List ZArith.
Import ListNotations.
Open Scope string_scope.

(** ** Data *)

(** What [response.json()] yields: Python values built from JSON text.
    A dict is kept as its items in order. *)
#[warnings="-register-all"]
Inductive JSON : Type :=
| JNull
| JBool (b : bool)
| JInt (n : Z)
| JStr (s : string)
| JList (items : list JSON)
| JDict (items : list (string * JSON)).

(** [pathlib.Path], by its text. *)
Definition Path := string.

(** The exceptions that cross the module's functions.  [Foreign] stands for
    whatever a collaborator raises (an [httpx] transport or status error, a
    JSON decoding error, a failure inside the token loader). *)
Inductive exn : Type :=
| ImportError
| AssertionError
| RuntimeError (msg : string)
| ValueError (msg : string)
| LogfireConfigError (msg : string)
| KeyError (key : string)
| TypeError
| Foreign (name : string).

Inductive Result (A : Type) : Type :=
| Ok (a : A)
| Raise (e : exn).
Arguments Ok {A} a.
Arguments Raise {A} e.

(** An [httpx.Response], seen through the two methods the module calls:
    [raise_for_status()] either passes ([None]) or raises, and [json()]
    parses the body. *)
Record Response : Type := mkResponse {
  raise_for_status : option exn;
  json : Result JSON
}.

Definition newline : string := String (ascii_of_nat 10) EmptyString.

Definition _PYODIDE_NOT_ALLOWED_MESSAGE : string :=
  "This function should not be called in the logfire frontend.".
Definition _PYODIDE_MUST_INJECT_MESSAGE : string :=
  "This function should be injected into pyodide by the web worker.".

(** ** Module load (lines 12-28) *)

(** What the interpreter offers when the module is imported. *)
Record Host : Type := mkHost {
  pyodide_in_sys_modules : bool;
  httpx_importable : bool;
  (** class name of [get_ipython()], [None] when the name is undefined *)
  ipython_shell : option string
}.

(** The three names bound once at import and never assigned again. *)
Record Env : Type := mkEnv {
  _in_pyodide : bool;
  (** [httpx is not None] *)
  httpx : bool;
  _in_jupyter : bool
}.

Definition import_dash (h : Host) : Result Env :=
  let in_pyodide := pyodide_in_sys_modules h in
  match (if httpx_importable h then Ok true
         else if in_pyodide then Ok false
         else Raise ImportError) with
  | Raise e => Raise e
  | Ok httpx_ok =>
      let in_jupyter :=
        match ipython_shell h with
        | Some cls => String.eqb cls "ZMQInteractiveShell"
        | None => false              (* except NameError *)
        end in
      Ok (mkEnv in_pyodide httpx_ok in_jupyter)
  end.

(** ** Python helpers *)

(** [d[key]] for a string key. *)
Fixpoint lookup_item (key : string) (items : list (string * JSON)) : option JSON :=
  match items with
  | [] => None
  | (k, v) :: rest => if String.eqb k key then Some v else lookup_item key rest
  end.

Definition getitem (d : JSON) (key : string) : Result JSON :=
  match d with
  | JDict items =>
      match lookup_item key items with
      | Some v => Ok v
      | None => Raise (KeyError key)
      end
  | _ => Raise TypeError
  end.

(** [v == s] for a string literal [s]. *)
Definition eq_str (v : JSON) (s : string) : bool :=
  match v with
  | JStr s' => String.eqb s' s
  | _ => false
  end.

(** [a or b] where [a : str | None]: [None] and the empty string are falsy. *)
Definition or_else (a : option string) (b : string) : string :=
  match a with
  | Some EmptyString => b
  | Some s => s
  | None => b
  end.

(** Calls that leave the module.  [Any] is the type of what [show] is
    handed. *)
Inductive Event (Any : Type) : Type :=
| LoadToken (token : option string) (data_dir : Path)
| HttpGet (headers : list (string * string)) (url : string)
          (params : list (string * string))
| Display (item : Any)
| Print (item : Any).
Arguments LoadToken {Any} token data_dir.
Arguments HttpGet {Any} headers url params.
Arguments Display {Any} item.
Arguments Print {Any} item.

(** The collaborators, none of which lives in this file of the repository:
    the constant of [._constants]; [LogfireConfig.load_token] (it returns a
    pair, of which the module keeps the first component); the construction
    of an [httpx.AsyncClient] with the given headers, which builds an object
    and sends nothing but can raise ([None] when the client is built); the
    [get] of the client built with those headers; [display] of
    [IPython.display], import included, and the built-in [print], either of
    which can raise; and the text an f-string field gives for a value that
    is not a [str].  [World] is what they read and change: environment
    variables, files, the remote service, the output channels.  The imports
    of the package's own modules inside the functions (lines 85, 127 and
    128) only bind these names; they are taken to succeed. *)
Class Collaborators (World Any Creds : Type) : Type := {
  LOGFIRE_BASE_URL : string;
  load_token : option string -> Path -> World ->
               Result (option string * Creds) * World;
  AsyncClient : list (string * string) -> World -> option exn;
  client_get : list (string * string) -> string -> list (string * string) ->
               World -> Result Response * World;
  display : Any -> World -> Result unit * World;
  print : Any -> World -> Result unit * World;
  str_of : JSON -> string
}.

(** The module globals of lines 113-116, the memo table of
    [functools.cache] around [_get_token] (one entry, for the empty
    argument tuple), the world, and the log of calls made so far. *)
Record State (World Any : Type) : Type := mkState {
  _configured : bool;
  _token : option string;
  _data_dir : Path;
  _base_url : option string;
  cache : option string;
  world : World;
  log : list (Event Any)
}.
Arguments mkState {World Any}.
Arguments _configured {World Any} s.
Arguments _token {World Any} s.
Arguments _data_dir {World Any} s.
Arguments _base_url {World Any} s.
Arguments cache {World Any} s.
Arguments world {World Any} s.
Arguments log {World Any} s.

(** The calls a user of the module can make. *)
Inductive Call (Any : Type) : Type :=
| CallConfigure (token : option string) (data_dir : Path)
                (base_url : option string)
| CallGetToken
| CallRawQuery (q : string)
| CallQuery (sql : string)
| CallShow (item : Any).
Arguments CallConfigure {Any} token data_dir base_url.
Arguments CallGetToken {Any}.
Arguments CallRawQuery {Any} q.
Arguments CallQuery {Any} sql.
Arguments CallShow {Any} item.

Section Dash.

Context {World Any Creds : Type} {collab : Collaborators World Any Creds}.

Local Abbreviation State := (State World Any).
Local Abbreviation Event := (Event Any).

Definition initial_state (w : World) : State :=
  mkState false None ".logfire" None None w [].

(** *** The monad *)

Definition M (A : Type) : Type := State -> Result A * State.

Definition ret {A} (a : A) : M A := fun s => (Ok a, s).
Definition raise {A} (e : exn) : M A := fun s => (Raise e, s).
Definition bind {A B} (m : M A) (k : A -> M B) : M B :=
  fun s => match m s with
           | (Ok a, s') => k a s'
           | (Raise e, s') => (Raise e, s')
           end.
Definition gets {A} (f : State -> A) : M A := fun s => (Ok (f s), s).
Definition modify (f : State -> State) : M unit := fun s => (Ok tt, f s).
Definition lift {A} (r : Result A) : M A := fun s => (r, s).

Notation "x <- m ;; k" := (bind m (fun x => k))
  (at level 61, m at next level, right associativity).
Notation "m ;;; k" := (bind m (fun _ => k))
  (at level 61, right associativity).

Definition set_token (v : option string) (s : State) : State :=
  mkState (_configured s) v (_data_dir s) (_base_url s) (cache s) (world s) (log s).
Definition set_data_dir (v : Path) (s : State) : State :=
  mkState (_configured s) (_token s) v (_base_url s) (cache s) (world s) (log s).
Definition set_base_url (v : option string) (s : State) : State :=
  mkState (_configured s) (_token s) (_data_dir s) v (cache s) (world s) (log s).
Definition set_configured (v : bool) (s : State) : State :=
  mkState v (_token s) (_data_dir s) (_base_url s) (cache s) (world s) (log s).
Definition set_cache (v : option string) (s : State) : State :=
  mkState (_configured s) (_token s) (_data_dir s) (_base_url s) v (world s) (log s).
Definition set_world (w : World) (s : State) : State :=
  mkState (_configured s) (_token s) (_data_dir s) (_base_url s) (cache s) w (log s).
Definition emit (e : Event) (s : State) : State :=
  mkState (_configured s) (_token s) (_data_dir s) (_base_url s) (cache s)
          (world s) (log s ++ [e]).

(** A call to a collaborator: logged, answered by the world. *)
Definition call {A} (e : Event) (f : World -> Result A * World) : M A :=
  fun s => let (r, w) := f (world s) in (r, set_world w (emit e s)).

(** A step that builds an object and can raise. *)
Definition construct (f : World -> option exn) : M unit :=
  fun s => match f (world s) with
           | Some e => (Raise e, s)
           | None => (Ok tt, s)
           end.

Variable env : Env.

(** *** [configure] (lines 34-53) *)

Definition configure (token : option string) (data_dir : Path)
                     (base_url : option string) : M unit :=
  if _in_pyodide env then
    ret tt
  else
    modify (set_token token) ;;;
    modify (set_data_dir data_dir) ;;;
    modify (set_base_url base_url) ;;;
    modify (set_cache None) ;;;              (* _get_token.cache_clear() *)
    modify (set_configured true).

(** [configure()] with every argument at its default. *)
Definition configure_defaults : M unit := configure None ".logfire" None.

(** *** [_get_token] (lines 119-137) *)

Definition no_token_message : string :=
  "No logfire token provided or found in the default locations."
  ++ " You can set the token via the environment variable `LOGFIRE_TOKEN`,"
  ++ " or with a call to `logfire.dash.configure`.".

(** The function under the decorator. *)
Definition _get_token_body : M string :=
  if _in_pyodide env then
    raise (RuntimeError _PYODIDE_NOT_ALLOWED_MESSAGE)
  else
    configured <- gets _configured ;;
    (if negb configured then configure_defaults else ret tt) ;;;
    tok <- gets _token ;;
    dir <- gets _data_dir ;;
    loaded <- call (LoadToken tok dir) (load_token tok dir) ;;
    match fst loaded with
    | None => raise (LogfireConfigError no_token_message)
    | Some token => ret token
    end.

(** [functools.cache] on a function of no argument: a stored result is
    returned without running the function; otherwise the function runs and
    its result is stored when it returns, not when it raises. *)
Definition functools_cache (f : M string) : M string :=
  hit <- gets cache ;;
  match hit with
  | Some result => ret result
  | None =>
      result <- f ;;
      modify (set_cache (Some result)) ;;;
      ret result
  end.

Definition _get_token : M string := functools_cache _get_token_body.

(** *** [_raw_query] and [query] (lines 56-94); [await] is sequencing *)

Definition _raw_query (q : string) : M JSON :=
  if _in_pyodide env then
    raise (RuntimeError _PYODIDE_MUST_INJECT_MESSAGE)
  else
    (if httpx env then ret tt else raise AssertionError) ;;;
    token <- _get_token ;;
    let headers := [("Authorization", token)] in
    construct (AsyncClient headers) ;;;
    base <- gets _base_url ;;
    let route := or_else base LOGFIRE_BASE_URL ++ "/dash/query" in
    response <- call (HttpGet headers route [("q", q)])
                     (client_get headers route [("q", q)]) ;;
    match raise_for_status response with
    | Some e => raise e
    | None => lift (json response)
    end.

(** The text an f-string puts for [{v}]: a [str] as it is. *)
Definition format_field (v : JSON) : string :=
  match v with
  | JStr s => s
  | _ => str_of v
  end.

Definition query (sql : string) : M JSON :=
  data <- _raw_query sql ;;
  status <- lift (getitem data "status") ;;
  if eq_str status "success" then
    lift (getitem data "clickhouse_data")
  else
    error_details <- lift (getitem data "error_details") ;;
    raise (ValueError ("Error running query:" ++ newline
                       ++ format_field error_details)).

(** *** [show] (lines 97-110) *)

Definition show (item : Any) : M unit :=
  if _in_pyodide env then
    raise (RuntimeError _PYODIDE_MUST_INJECT_MESSAGE)
  else if _in_jupyter env then
    call (Display item) (display item)
  else
    call (Print item) (print item).

(** *** Histories of calls *)

(** One call made by user code; what it returns or raises is dropped, the
    state it leaves is kept. *)
Definition perform (c : Call Any) (s : State) : State :=
  match c with
  | CallConfigure token data_dir base_url =>
      snd (configure token data_dir base_url s)
  | CallGetToken => snd (_get_token s)
  | CallRawQuery q => snd (_raw_query q s)
  | CallQuery sql => snd (query sql s)
  | CallShow item => snd (show item s)
  end.

Definition run (calls : list (Call Any)) (s : State) : State :=
  fold_left (fun st c => perform c st) calls s.

(** What every state of a running process satisfies: nothing is memoized
    in pyodide, and as long as [_configured] is false the globals hold
    the values of lines 113-116 and nothing is memoized. *)
Definition consistent (s : State) : Prop :=
  (_in_pyodide env = true -> cache s = None) /\
  (_configured s = false ->
     _token s = None /\ _data_dir s = ".logfire" /\ _base_url s = None /\
     cache s = None).

(** The GET requests of a log, in order. *)
Definition http_requests (l : list Event) : list Event :=
  filter (fun e => match e with HttpGet _ _ _ => true | _ => false end) l.

End Dash.

(** [needle] occurs in [text]. *)
Definition mentions (needle text : string) : Prop :=
  exists before after, text = before ++ needle ++ after.

(** The base URL as a reader takes "the explicit override when one is set,
    else the default": named for comparison with [or_else]. *)
Definition override_when_set (base_url : option string) (default : string)
  : string :=
  match base_url with
  | Some u => u
  | None => default
  end.

(** *** Observations on calls and logs *)

Definition is_configure {Any : Type} (c : Call Any) : bool :=
  match c with
  | CallConfigure _ _ _ => true
  | _ => false
  end.

(** The calls to the token loader of a log, in order. *)
Definition token_loads {Any : Type} (l : list (Event Any)) : list (Event Any) :=
  filter (fun e => match e with LoadToken _ _ => true | _ => false end) l.

(** The shape of the only request [_raw_query] builds: one [Authorization]
    header, a URL ending in [/dash/query], one [q] parameter. *)
Definition dash_request {Any : Type} (e : Event Any) : Prop :=
  match e with
  | HttpGet headers url params =>
      exists token base q,
        headers = [("Authorization", token)] /\
        url = base ++ "/dash/query" /\
        params = [("q", q)]
  | _ => True
  end.

(** ** A scripted world

    The stand-ins the tests of such a module use: a token loader that gives
    the explicit token back when there is one and otherwise reads the next
    scripted answer, a client that cannot be built with a header value
    outside ASCII and whose [get] gives a fixed reply, and output channels
    that take every string. *)
Module Mock.

Record World : Type := mkWorld {
  answers : list (option string);
  reply : Result Response
}.

Definition load (token : option string) (data_dir : Path) (w : World)
  : Result (option string * unit) * World :=
  match token with
  | Some t => (Ok (Some t, tt), w)
  | None =>
      match answers w with
      | [] => (Ok (None, tt), w)
      | a :: rest => (Ok (a, tt), mkWorld rest (reply w))
      end
  end.

Definition get (headers : list (string * string)) (url : string)
               (params : list (string * string)) (w : World)
  : Result Response * World :=
  (reply w, w).

Definition is_ascii (s : string) : bool :=
  forallb (fun c => Nat.ltb (nat_of_ascii c) 128) (list_ascii_of_string s).

Definition new_client (headers : list (string * string)) (w : World)
  : option exn :=
  if forallb (fun h => is_ascii (snd h)) headers then None
  else Some (Foreign "UnicodeEncodeError").

Definition accept {A : Type} (item : A) (w : World) : Result unit * World :=
  (Ok tt, w).

#[global] Instance collaborators : Collaborators World string unit := {|
  LOGFIRE_BASE_URL := "https://logfire.example";
  load_token := load;
  AsyncClient := new_client;
  client_get := get;
  display := accept;
  print := accept;
  str_of := fun _ => "<value>"
|}.

(** Objects handed to [show]: one that prints as a text, and one whose
    [__str__] raises. *)
Inductive Item : Type :=
| Text (s : string)
| Unprintable.

Definition print_item (item : Item) (w : World) : Result unit * World :=
  match item with
  | Text _ => (Ok tt, w)
  | Unprintable => (Raise (Foreign "ValueError"), w)
  end.

#[global] Instance with_objects : Collaborators World Item unit := {|
  LOGFIRE_BASE_URL := "https://logfire.example";
  load_token := load;
  AsyncClient := new_client;
  client_get := get;
  display := accept;
  print := print_item;
  str_of := fun _ => "<value>"
|}.

Definition local_env : Env := mkEnv false true false.
Definition notebook_env : Env := mkEnv false true true.
Definition pyodide_env : Env := mkEnv true false false.

Definition local_host : Host := mkHost false true None.

Definition success_body : JSON :=
  JDict [("status", JStr "success");
         ("clickhouse_data", JList [JDict [("1", JInt 1)]])].

Definition error_body : JSON :=
  JDict [("status", JStr "error"); ("error_details", JStr "syntax error")].

Definition replying (body : JSON) : World :=
  mkWorld [Some "tok"] (Ok (mkResponse None (Ok body))).

Definition fresh (w : World) : State World string := initial_state w.

End Mock.

(** ** Properties *)

Lemma append_empty_r (s : string) : s ++ "" = s.
Proof. induction s as [|a s IH]; simpl; [reflexivity | now rewrite IH]. Qed.

Ltac run_model :=
  unfold perform, query, _raw_query, show, _get_token, functools_cache,
    _get_token_body, configure_defaults, configure, call, construct, bind, ret,
    raise, gets, modify, lift, set_token, set_data_dir, set_base_url,
    set_cache, set_configured, set_world, emit;
  simpl.

Section Properties.

Context {World Any Creds : Type} {collab : Collaborators World Any Creds}.
Variable env : Env.

Local Abbreviation State := (State World Any).

(** *** What [_get_token] does outside pyodide, in one equation *)

Lemma get_token_local (s : State) :
  _in_pyodide env = false ->
  _get_token env s =
  match cache s with
  | Some t => (Ok t, s)
  | None =>
      let s0 := if _configured s then s
                else mkState true None ".logfire" None None (world s) (log s) in
      let rw := load_token (_token s0) (_data_dir s0) (world s) in
      let s1 := mkState true (_token s0) (_data_dir s0) (_base_url s0) None
                        (snd rw)
                        (log s ++ [LoadToken (_token s0) (_data_dir s0)]) in
      match fst rw with
      | Raise e => (Raise e, s1)
      | Ok loaded =>
          match fst loaded with
          | None => (Raise (LogfireConfigError no_token_message), s1)
          | Some t => (Ok t, set_cache (Some t) s1)
          end
      end
  end.
Proof.
  intros Hloc. destruct s as [cfg tok dir url memo w l].
  run_model. rewrite Hloc. simpl.
  destruct memo as [t|]; [reflexivity|].
  destruct cfg; simpl;
    destruct (load_token _ _ w) as [[[[t|] c]|e] w']; reflexivity.
Qed.

Lemma get_token_in_pyodide (s : State) :
  _in_pyodide env = true ->
  cache s = None ->
  _get_token env s = (Raise (RuntimeError _PYODIDE_NOT_ALLOWED_MESSAGE), s).
Proof.
  intros Hpy Hc. destruct s as [cfg tok dir url memo w l]. simpl in Hc. subst memo.
  run_model. rewrite Hpy. reflexivity.
Qed.

Lemma raw_query_in_pyodide (q : string) (s : State) :
  _in_pyodide env = true ->
  _raw_query env q s = (Raise (RuntimeError _PYODIDE_MUST_INJECT_MESSAGE), s).
Proof. intros Hpy. unfold _raw_query. rewrite Hpy. reflexivity. Qed.

(** *** The invariant *)

Lemma perform_in_pyodide (c : Call Any) (s : State) :
  _in_pyodide env = true -> cache s = None -> perform env c s = s.
Proof.
  intros Hpy Hc. destruct c; unfold perform.
  - unfold configure. rewrite Hpy. reflexivity.
  - rewrite get_token_in_pyodide by assumption. reflexivity.
  - rewrite raw_query_in_pyodide by assumption. reflexivity.
  - unfold query, bind. rewrite raw_query_in_pyodide by assumption. reflexivity.
  - unfold show. rewrite Hpy. reflexivity.
Qed.

Lemma run_in_pyodide (calls : list (Call Any)) (s : State) :
  _in_pyodide env = true -> cache s = None -> run env calls s = s.
Proof.
  intros Hpy. revert s. induction calls as [|c calls IH]; intros s Hc.
  - reflexivity.
  - unfold run in *. simpl. rewrite perform_in_pyodide by assumption. now apply IH.
Qed.

Lemma consistent_initial (w : World) :
  consistent env (initial_state w : State).
Proof. split; intros; simpl; auto. Qed.

Lemma raw_query_local (q : string) (s : State) :
  _in_pyodide env = false ->
  httpx env = true ->
  _raw_query env q s =
  match _get_token env s with
  | (Raise e, s1) => (Raise e, s1)
  | (Ok token, s1) =>
      let headers := [("Authorization", token)] in
      match AsyncClient headers (world s1) with
      | Some e => (Raise e, s1)
      | None =>
          let route :=
            or_else (_base_url s1) LOGFIRE_BASE_URL ++ "/dash/query" in
          let rw := client_get headers route [("q", q)] (world s1) in
          (match fst rw with
           | Raise e => Raise e
           | Ok response =>
               match raise_for_status response with
               | Some e => Raise e
               | None => json response
               end
           end,
           set_world (snd rw) (emit (HttpGet headers route [("q", q)]) s1))
      end
  end.
Proof.
  intros Hloc Hx. unfold _raw_query. rewrite Hloc, Hx.
  unfold bind at 1. unfold ret at 1. unfold bind at 1.
  destruct (_get_token env s) as [[token|e] s1]; [|reflexivity].
  unfold bind at 1. unfold construct.
  destruct (AsyncClient _ (world s1)) as [e|]; [reflexivity|].
  unfold bind, gets, call, lift, raise.
  destruct (client_get _ _ _ (world s1)) as [[response|e] w]; simpl;
    [destruct (raise_for_status response)|]; reflexivity.
Qed.

(** Outside pyodide [_get_token] leaves the stored configuration of a
    consistent state as it was, apart from the flag. *)
Lemma get_token_keeps (s : State) :
  _in_pyodide env = false ->
  consistent env s ->
  let s1 := snd (_get_token env s) in
  consistent env s1 /\
  _token s1 = _token s /\ _data_dir s1 = _data_dir s /\
  _base_url s1 = _base_url s.
Proof.
  intros Hloc Hs. cbv zeta. rewrite get_token_local by assumption.
  assert (Hc : forall s' : State,
             _configured s' = true -> consistent env s').
  { intros s' Hcfg. split; intros Hno; congruence. }
  destruct (cache s) eqn:Ec; simpl.
  - auto.
  - destruct (_configured s) eqn:Ecfg.
    + destruct (fst (load_token _ _ _)) as [[[t|] c]|e]; simpl;
        (split; [apply Hc; reflexivity | auto]).
    + destruct Hs as [_ Hdef].
      destruct (Hdef Ecfg) as (Ht & Hd & Hu & _).
      destruct (fst (load_token _ _ _)) as [[[t|] c]|e]; simpl;
        (split; [apply Hc; reflexivity | auto]).
Qed.

Lemma consistent_call {A : Type} (e : Event Any)
    (f : World -> Result A * World) (s : State) :
  consistent env s -> consistent env (snd (call e f s)).
Proof.
  intros Hs. unfold call. destruct (f (world s)) as [r w]. exact Hs.
Qed.

Lemma perform_consistent (c : Call Any) (s : State) :
  consistent env s -> consistent env (perform env c s).
Proof.
  intros Hs. destruct (_in_pyodide env) eqn:Hpy.
  - rewrite perform_in_pyodide; auto. destruct Hs as [Hs _]. now apply Hs.
  - assert (Hraw : forall q, consistent env (snd (_raw_query env q s))).
    { intros q. destruct (httpx env) eqn:Hx.
      - rewrite raw_query_local by assumption.
        pose proof (get_token_keeps s Hpy Hs) as (Hk & _).
        destruct (_get_token env s) as [[token|e] s1]; simpl in *; auto.
        destruct (AsyncClient _ (world s1)); simpl; auto.
      - unfold _raw_query. rewrite Hpy, Hx. simpl. exact Hs. }
    destruct c; unfold perform.
    + unfold configure. rewrite Hpy. run_model.
      split; simpl; intros Hno; congruence.
    + apply (get_token_keeps s Hpy Hs).
    + apply Hraw.
    + specialize (Hraw sql). unfold query, bind.
      destruct (_raw_query env sql s) as [[data|e] s1]; simpl in *; auto.
      unfold lift. destruct (getitem data "status") as [status|e]; simpl; auto.
      destruct (eq_str status "success"); simpl; auto.
      destruct (getitem data "error_details"); simpl; auto.
    + unfold show. rewrite Hpy.
      destruct (_in_jupyter env); now apply consistent_call.
Qed.

Lemma run_consistent (calls : list (Call Any)) (s : State) :
  consistent env s -> consistent env (run env calls s).
Proof.
  revert s. induction calls as [|c calls IH]; intros s Hs; [exact Hs|].
  unfold run in *. simpl. apply IH. now apply perform_consistent.
Qed.

(** Every state a process reaches from the import on is consistent. *)
Lemma reachable_consistent (w : World) (calls : list (Call Any)) :
  consistent env (run env calls (initial_state w)).
Proof. apply run_consistent, consistent_initial. Qed.

Lemma get_token_requests (s : State) :
  _in_pyodide env = false ->
  http_requests (log (snd (_get_token env s))) = http_requests (log s).
Proof.
  intros Hloc. rewrite get_token_local by assumption.
  destruct (cache s); [reflexivity|]. unfold http_requests.
  destruct (_configured s);
    destruct (fst (load_token _ _ _)) as [[[t|] c]|e]; simpl;
    rewrite filter_app; simpl; apply app_nil_r.
Qed.

Lemma import_gives_httpx (h : Host) :
  import_dash h = Ok env -> _in_pyodide env = false -> httpx env = true.
Proof.
  unfold import_dash. intros Himp Hloc.
  destruct (httpx_importable h); [inversion Himp; reflexivity|].
  destruct (pyodide_in_sys_modules h) eqn:Hp; [|discriminate].
  inversion Himp; subst env. simpl in Hloc. congruence.
Qed.

(** *** Properties of the specification *)

(** C1.  In pyodide [_raw_query], [query] and [show] raise whatever the
    state is, and [_get_token] raises from any configuration with nothing
    memoized and after any sequence of calls made there, the empty one
    included, so before any [configure].  The error the specification calls
    EnvironmentError is the [RuntimeError] the module raises with one of its
    two pyodide messages. *)
Theorem C1_pyodide_calls_raise :
  _in_pyodide env = true ->
  (forall (s : State) (q : string),
      _raw_query env q s
      = (Raise (RuntimeError _PYODIDE_MUST_INJECT_MESSAGE), s)) /\
  (forall (s : State) (sql : string),
      query env sql s
      = (Raise (RuntimeError _PYODIDE_MUST_INJECT_MESSAGE), s)) /\
  (forall (s : State) (item : Any),
      show env item s
      = (Raise (RuntimeError _PYODIDE_MUST_INJECT_MESSAGE), s)) /\
  (forall (s0 : State) (calls : list (Call Any)),
      cache s0 = None ->
      _get_token env (run env calls s0)
      = (Raise (RuntimeError _PYODIDE_NOT_ALLOWED_MESSAGE), run env calls s0)).
Proof.
  intros Hpy. repeat split.
  - intros s q. now apply raw_query_in_pyodide.
  - intros s sql. unfold query, bind. now rewrite raw_query_in_pyodide.
  - intros s item. unfold show. now rewrite Hpy.
  - intros s0 calls Hc. rewrite run_in_pyodide by assumption.
    now apply get_token_in_pyodide.
Qed.

(** C2.  When [_raw_query] returns a dict whose ["status"] is ["success"],
    [query] returns the value under ["clickhouse_data"] as it is, and leaves
    the state [_raw_query] left. *)
Theorem C2_query_success (sql : string) (s s' : State) (data rows : JSON) :
  _raw_query env sql s = (Ok data, s') ->
  getitem data "status" = Ok (JStr "success") ->
  getitem data "clickhouse_data" = Ok rows ->
  query env sql s = (Ok rows, s').
Proof.
  intros Hraw Hstatus Hrows. unfold query, bind, lift.
  rewrite Hraw, Hstatus. simpl. now rewrite Hrows.
Qed.

(** C3.  When [_raw_query] returns a dict whose ["status"] is ["error"] and
    whose ["error_details"] is a string, [query] raises the [ValueError]
    (the specification's QueryError) whose message is the fixed heading, a
    line break and that string, so the details occur in it verbatim. *)
Theorem C3_query_error (sql : string) (s s' : State) (data : JSON)
    (details : string) :
  _raw_query env sql s = (Ok data, s') ->
  getitem data "status" = Ok (JStr "error") ->
  getitem data "error_details" = Ok (JStr details) ->
  query env sql s
  = (Raise (ValueError ("Error running query:" ++ newline ++ details)), s') /\
  mentions details ("Error running query:" ++ newline ++ details).
Proof.
  intros Hraw Hstatus Hdetails. split.
  - unfold query, bind, lift. rewrite Hraw, Hstatus. simpl.
    now rewrite Hdetails.
  - exists ("Error running query:" ++ newline), "".
    rewrite append_empty_r. reflexivity.
Qed.

(** C4.  Outside pyodide [configure] returns, stores its three
    arguments, sets [_configured], empties the memo table and touches
    nothing else; the next [_get_token] then calls the token loader with the
    credential and discovery path just stored, once, and returns or raises
    by what the loader answers. *)
Theorem C4_configure_then_get_token (token : option string) (data_dir : Path)
    (base_url : option string) (s : State) :
  _in_pyodide env = false ->
  exists s1 : State,
    configure env token data_dir base_url s = (Ok tt, s1) /\
    _token s1 = token /\ _data_dir s1 = data_dir /\ _base_url s1 = base_url /\
    _configured s1 = true /\ cache s1 = None /\
    world s1 = world s /\ log s1 = log s /\
    exists (res : Result string) (s2 : State),
      _get_token env s1 = (res, s2) /\
      log s2 = (log s ++ [LoadToken token data_dir])%list /\
      world s2 = snd (load_token token data_dir (world s)) /\
      res = match fst (load_token token data_dir (world s)) with
            | Raise e => Raise e
            | Ok (Some t, _) => Ok t
            | Ok (None, _) => Raise (LogfireConfigError no_token_message)
            end.
Proof.
  intros Hloc.
  exists (mkState true token data_dir base_url None (world s) (log s)).
  split; [unfold configure; rewrite Hloc; reflexivity|].
  repeat (split; [reflexivity|]).
  rewrite get_token_local by assumption. simpl.
  destruct (load_token token data_dir (world s)) as [[[[t|] c]|e] w]; simpl;
    eexists; eexists; repeat split.
Qed.

(** C5.  Outside pyodide, when [_get_token] returns a credential, the
    next call returns the same credential and leaves the state, the log of
    loader calls included, as it was; the first call either found the
    credential memoized or called the loader once. *)
Theorem C5_get_token_memoized (s s1 : State) (t : string) :
  _in_pyodide env = false ->
  _get_token env s = (Ok t, s1) ->
  _get_token env s1 = (Ok t, s1) /\
  ((cache s = Some t /\ s1 = s) \/
   (cache s = None /\
    log s1 = (log s ++ [LoadToken (_token s1) (_data_dir s1)])%list)).
Proof.
  intros Hloc Hfirst. rewrite get_token_local in Hfirst by assumption.
  destruct (cache s) as [t0|] eqn:Ec.
  - inversion Hfirst; subst. split; [|left; auto].
    rewrite get_token_local by assumption. now rewrite Ec.
  - simpl in Hfirst.
    destruct (fst (load_token _ _ _)) as [[[t1|] c]|e]; simpl in Hfirst;
      inversion Hfirst; subst.
    split; [|right; split; reflexivity].
    rewrite get_token_local by assumption. reflexivity.
Qed.

(** C6.  Outside pyodide, in a consistent state with nothing memoized,
    when the token loader answers with no credential for the stored
    credential and discovery path, [_get_token] raises the
    [LogfireConfigError] (the specification's ConfigurationError) whose
    message names the environment variable and the [configure] call. *)
Theorem C6_no_token_error (s : State) (c : Creds) (w : World) :
  _in_pyodide env = false ->
  consistent env s ->
  cache s = None ->
  load_token (_token s) (_data_dir s) (world s) = (Ok (None, c), w) ->
  (exists s1 : State,
      _get_token env s = (Raise (LogfireConfigError no_token_message), s1)) /\
  mentions "environment variable `LOGFIRE_TOKEN`" no_token_message /\
  mentions "`logfire.dash.configure`" no_token_message.
Proof.
  intros Hloc [_ Hdef] Hc Hload. split.
  - rewrite get_token_local by assumption. rewrite Hc.
    destruct (_configured s) eqn:Ecfg; simpl.
    + rewrite Hload. simpl. eexists. reflexivity.
    + destruct (Hdef eq_refl) as (Ht & Hd & _).
      rewrite Ht, Hd in Hload. rewrite Hload. simpl. eexists. reflexivity.
  - split.
    + exists ("No logfire token provided or found in the default locations."
              ++ " You can set the token via the "),
             ("," ++ " or with a call to `logfire.dash.configure`.").
      reflexivity.
    + exists ("No logfire token provided or found in the default locations."
              ++ " You can set the token via the environment variable"
              ++ " `LOGFIRE_TOKEN`, or with a call to "), ".".
      reflexivity.
Qed.

(** C7.  In pyodide [configure] returns and leaves the whole state,
    the memo table included, as it was. *)
Theorem C7_configure_noop_in_pyodide (token : option string)
    (data_dir : Path) (base_url : option string) (s : State) :
  _in_pyodide env = true ->
  configure env token data_dir base_url s = (Ok tt, s).
Proof. intros Hpy. unfold configure. now rewrite Hpy. Qed.

(** C8, amended.  Outside pyodide, in a consistent state of a module that
    was imported, [_raw_query] first resolves the token and then builds the
    client with the token as its [Authorization] header.  If either step
    raises, it raises the same and no request is made.  Otherwise it makes
    one GET request, to the base URL followed by [/dash/query], with the SQL
    text as the [q] parameter, through that client; the base URL is the
    stored override when that is a non-empty string and the default constant
    when it is [None] or empty.  A failure of the request or of
    [raise_for_status] is raised, the latter whatever the body holds;
    otherwise the result is the parsed body. *)
Theorem C8_raw_query_request (h : Host) (q : string) (s : State) :
  import_dash h = Ok env ->
  _in_pyodide env = false ->
  consistent env s ->
  let route := or_else (_base_url s) LOGFIRE_BASE_URL ++ "/dash/query" in
  ((forall u, _base_url s = Some u -> u <> "" -> route = u ++ "/dash/query") /\
   (_base_url s = None \/ _base_url s = Some "" ->
    route = LOGFIRE_BASE_URL ++ "/dash/query")) /\
  match _get_token env s with
  | (Raise e, s1) =>
      _raw_query env q s = (Raise e, s1) /\
      http_requests (log s1) = http_requests (log s)
  | (Ok token, s1) =>
      let headers := [("Authorization", token)] in
      match AsyncClient headers (world s1) with
      | Some e =>
          _raw_query env q s = (Raise e, s1) /\
          http_requests (log s1) = http_requests (log s)
      | None =>
          let request := HttpGet headers route [("q", q)] in
          let rw := client_get headers route [("q", q)] (world s1) in
          exists s2 : State,
            _raw_query env q s
            = (match fst rw with
               | Raise e => Raise e
               | Ok response =>
                   match raise_for_status response with
                   | Some e => Raise e
                   | None => json response
                   end
               end, s2) /\
            log s2 = (log s1 ++ [request])%list /\
            http_requests (log s2)
            = (http_requests (log s) ++ [request])%list
      end
  end.
Proof.
  intros Himp Hloc Hs. cbv zeta. split.
  - split.
    + intros u Hu Hne. rewrite Hu. destruct u; [congruence | reflexivity].
    + intros [Hu|Hu]; rewrite Hu; reflexivity.
  - pose proof (import_gives_httpx h Himp Hloc) as Hx.
    rewrite raw_query_local by assumption.
    pose proof (get_token_keeps s Hloc Hs) as (_ & _ & _ & Hbase).
    pose proof (get_token_requests s Hloc) as Hreq.
    destruct (_get_token env s) as [[token|e] s1]; simpl in Hbase, Hreq.
    + cbv zeta. destruct (AsyncClient _ (world s1)) as [e|].
      * split; [reflexivity | exact Hreq].
      * rewrite Hbase. eexists. split; [reflexivity|].
        split; [reflexivity|].
        simpl. unfold http_requests in *.
        rewrite filter_app, Hreq. reflexivity.
    + split; [reflexivity | exact Hreq].
Qed.

(** C9, amended.  Outside pyodide [show] hands the item to [display] in a
    notebook and to [print] otherwise, once; it returns when that returns
    and raises what that raises, and in either case the globals and the
    memo table are untouched. *)
Theorem C9_show_dispatch (item : Any) (s : State) :
  _in_pyodide env = false ->
  let shown := if _in_jupyter env then display item (world s)
               else print item (world s) in
  exists s1 : State,
    show env item s = (fst shown, s1) /\
    log s1 = (log s ++ [if _in_jupyter env then Display item
                        else Print item])%list /\
    world s1 = snd shown /\
    _configured s1 = _configured s /\ _token s1 = _token s /\
    _data_dir s1 = _data_dir s /\ _base_url s1 = _base_url s /\
    cache s1 = cache s.
Proof.
  intros Hloc. cbv zeta. unfold show, call. rewrite Hloc.
  destruct (_in_jupyter env).
  - destruct (display item (world s)) as [r w]. eexists.
    split; [reflexivity|]. repeat split.
  - destruct (print item (world s)) as [r w]. eexists.
    split; [reflexivity|]. repeat split.
Qed.

(** C10.  Outside pyodide, when [_get_token] raises, nothing is
    memoized: the next call, with no [configure] in between, calls the
    token loader again with the stored credential and discovery path, and
    when the loader now answers with a credential it returns that
    credential and memoizes it. *)
Theorem C10_failure_not_memoized (s s1 : State) (e : exn) :
  _in_pyodide env = false ->
  _get_token env s = (Raise e, s1) ->
  cache s1 = None /\
  exists (res : Result string) (s2 : State),
    _get_token env s1 = (res, s2) /\
    log s2 = (log s1 ++ [LoadToken (_token s1) (_data_dir s1)])%list /\
    forall (t : string) (c : Creds) (w : World),
      load_token (_token s1) (_data_dir s1) (world s1) = (Ok (Some t, c), w) ->
      res = Ok t /\ cache s2 = Some t /\ _token s2 = _token s1 /\
      _data_dir s2 = _data_dir s1 /\ _base_url s2 = _base_url s1.
Proof.
  intros Hloc Hfirst. rewrite get_token_local in Hfirst by assumption.
  destruct (cache s) as [t0|] eqn:Ec; [discriminate|].
  assert (Hs1 : cache s1 = None /\ _configured s1 = true).
  { simpl in Hfirst.
    destruct (fst (load_token _ _ _)) as [[[t1|] c]|e1]; simpl in Hfirst;
      inversion Hfirst; subst; split; reflexivity. }
  destruct Hs1 as [Hc1 Hcfg1]. split; [exact Hc1|].
  rewrite get_token_local by assumption. rewrite Hc1, Hcfg1. simpl.
  destruct (load_token (_token s1) (_data_dir s1) (world s1))
    as [[[[t|] c]|e2] w] eqn:El; simpl;
    eexists; eexists; (split; [reflexivity|]); (split; [reflexivity|]);
    intros t' c' w' Heq; inversion Heq; subst; repeat split.
Qed.

End Properties.

(** ** The properties on the scripted world *)

Lemma C1_pyodide_witness :
  _in_pyodide Mock.pyodide_env = true /\
  query Mock.pyodide_env "SELECT 1" (Mock.fresh (Mock.replying Mock.success_body))
  = (Raise (RuntimeError _PYODIDE_MUST_INJECT_MESSAGE),
     Mock.fresh (Mock.replying Mock.success_body)) /\
  show Mock.pyodide_env "item" (Mock.fresh (Mock.replying Mock.success_body))
  = (Raise (RuntimeError _PYODIDE_MUST_INJECT_MESSAGE),
     Mock.fresh (Mock.replying Mock.success_body)) /\
  fst (_get_token Mock.pyodide_env
         (run Mock.pyodide_env [CallConfigure (Some "secret") "dir" None]
              (Mock.fresh (Mock.replying Mock.success_body))))
  = Raise (RuntimeError _PYODIDE_NOT_ALLOWED_MESSAGE).
Proof.
  split; [reflexivity|].
  destruct (C1_pyodide_calls_raise (World:=Mock.World) (Any:=string)
              Mock.pyodide_env eq_refl) as (_ & Hquery & Hshow & Htoken).
  split; [apply Hquery|]. split; [apply Hshow|].
  rewrite Htoken; reflexivity.
Defined.

Lemma C2_select_1_witness :
  fst (query Mock.local_env "SELECT 1"
         (Mock.fresh (Mock.replying Mock.success_body)))
  = Ok (JList [JDict [("1", JInt 1)]]).
Proof.
  rewrite (C2_query_success Mock.local_env "SELECT 1"
             (Mock.fresh (Mock.replying Mock.success_body))
             (snd (_raw_query Mock.local_env "SELECT 1"
                     (Mock.fresh (Mock.replying Mock.success_body))))
             Mock.success_body (JList [JDict [("1", JInt 1)]]));
    reflexivity.
Defined.

Lemma C3_syntax_error_witness :
  fst (query Mock.local_env "SELECT"
         (Mock.fresh (Mock.replying Mock.error_body)))
  = Raise (ValueError ("Error running query:" ++ newline ++ "syntax error")) /\
  mentions "syntax error"
           ("Error running query:" ++ newline ++ "syntax error").
Proof.
  destruct (C3_query_error Mock.local_env "SELECT"
              (Mock.fresh (Mock.replying Mock.error_body))
              (snd (_raw_query Mock.local_env "SELECT"
                      (Mock.fresh (Mock.replying Mock.error_body))))
              Mock.error_body "syntax error")
    as [Hraise Hmsg]; try reflexivity.
  split; [rewrite Hraise; reflexivity | exact Hmsg].
Defined.

Lemma C4_reconfigure_witness :
  let s := snd (_get_token Mock.local_env
                  (Mock.fresh (Mock.replying Mock.success_body))) in
  cache s = Some "tok" /\
  exists s1,
    configure Mock.local_env (Some "new") "elsewhere" None s = (Ok tt, s1) /\
    cache s1 = None /\
    exists s2,
      _get_token Mock.local_env s1 = (Ok "new", s2) /\
      log s2 = [LoadToken None ".logfire"; LoadToken (Some "new") "elsewhere"].
Proof.
  intros s. split; [reflexivity|].
  destruct (C4_configure_then_get_token Mock.local_env
              (Some "new") "elsewhere" None s eq_refl)
    as (s1 & Hconf & _ & _ & _ & _ & Hcache & _ & _ & res & s2 & Hget & Hlog
        & _ & Hres).
  exists s1. split; [exact Hconf|]. split; [exact Hcache|].
  exists s2. split; [rewrite Hget, Hres; reflexivity | exact Hlog].
Defined.

Lemma C5_second_call_witness :
  let s := Mock.fresh (Mock.replying Mock.success_body) in
  let s1 := snd (_get_token Mock.local_env s) in
  _get_token Mock.local_env s = (Ok "tok", s1) /\
  _get_token Mock.local_env s1 = (Ok "tok", s1).
Proof.
  intros s s1. split; [reflexivity|].
  apply (C5_get_token_memoized Mock.local_env s s1 "tok"); reflexivity.
Defined.

Lemma C6_no_token_witness :
  fst (_get_token Mock.local_env
         (Mock.fresh (Mock.mkWorld [] (Raise (Foreign "ConnectError")))))
  = Raise (LogfireConfigError no_token_message) /\
  mentions "`logfire.dash.configure`" no_token_message.
Proof.
  destruct (C6_no_token_error Mock.local_env
              (Mock.fresh (Mock.mkWorld [] (Raise (Foreign "ConnectError"))))
              tt (Mock.mkWorld [] (Raise (Foreign "ConnectError"))))
    as ((s1 & Hget) & _ & Hconfigure);
    [reflexivity | apply consistent_initial | reflexivity | reflexivity |].
  split; [rewrite Hget; reflexivity | exact Hconfigure].
Defined.

Lemma C7_pyodide_configure_witness :
  configure Mock.pyodide_env (Some "secret") "dir" (Some "https://eu.example")
            (Mock.fresh (Mock.replying Mock.success_body))
  = (Ok tt, Mock.fresh (Mock.replying Mock.success_body)).
Proof.
  apply (C7_configure_noop_in_pyodide (World:=Mock.World) (Any:=string)
           Mock.pyodide_env). reflexivity.
Defined.

(** C8 as the specification words it.  With the empty string stored as the override the
    request goes to the default base URL, not to the override. *)
Lemma C8_empty_override_counterexample :
  let s := snd (configure Mock.local_env None ".logfire" (Some "")
                  (Mock.fresh (Mock.replying Mock.success_body))) in
  _base_url s = Some "" /\
  log (snd (_raw_query Mock.local_env "SELECT 1" s))
  = [LoadToken None ".logfire";
     HttpGet [("Authorization", "tok")] "https://logfire.example/dash/query"
             [("q", "SELECT 1")]] /\
  log (snd (_raw_query Mock.local_env "SELECT 1" s))
  <> [LoadToken None ".logfire";
      HttpGet [("Authorization", "tok")]
              (override_when_set (_base_url s) LOGFIRE_BASE_URL ++ "/dash/query")
              [("q", "SELECT 1")]].
Proof.
  intros s. split; [reflexivity|]. split; [reflexivity|].
  vm_compute. intros H. discriminate H.
Qed.

Lemma C8_override_witness :
  let s := snd (configure Mock.local_env None ".logfire"
                  (Some "https://eu.example")
                  (Mock.fresh (Mock.replying Mock.success_body))) in
  fst (_raw_query Mock.local_env "SELECT 1" s) = Ok Mock.success_body /\
  http_requests (log (snd (_raw_query Mock.local_env "SELECT 1" s)))
  = [HttpGet [("Authorization", "tok")] "https://eu.example/dash/query"
             [("q", "SELECT 1")]].
Proof.
  intros s.
  pose proof (C8_raw_query_request Mock.local_env Mock.local_host
                "SELECT 1" s eq_refl eq_refl) as H.
  destruct H as [_ H].
  - split; simpl; intros H; [discriminate H | discriminate H].
  - change (_get_token Mock.local_env s)
      with (Ok "tok", snd (_get_token Mock.local_env s)) in H.
    cbv beta iota zeta in H. destruct H as (s2 & Hq & _ & Hreq).
    rewrite Hq. split; [reflexivity | exact Hreq].
Defined.

Lemma C9_notebook_witness :
  exists s1,
    show Mock.notebook_env "item" (Mock.fresh (Mock.replying Mock.success_body))
    = (Ok tt, s1) /\
    log s1 = [Display "item"].
Proof.
  destruct (C9_show_dispatch (World:=Mock.World) Mock.notebook_env "item"
              (Mock.fresh (Mock.replying Mock.success_body)) eq_refl)
    as (s1 & Hshow & Hlog & _).
  exists s1. split; [exact Hshow | exact Hlog].
Defined.

(** C9 as the specification words it.  Handed an object whose [__str__]
    raises, [show] in a plain process does not return: it raises what
    [print] raises. *)
Lemma C9_unprintable_counterexample :
  let s : State Mock.World Mock.Item :=
    initial_state (Mock.replying Mock.success_body) in
  _in_pyodide Mock.local_env = false /\
  _in_jupyter Mock.local_env = false /\
  show Mock.local_env Mock.Unprintable s
  = (Raise (Foreign "ValueError"),
     mkState false None ".logfire" None None
             (Mock.replying Mock.success_body) [Print Mock.Unprintable]) /\
  fst (show Mock.local_env Mock.Unprintable s) <> Ok tt.
Proof.
  intros s. repeat split. intros H. discriminate H.
Qed.

(** A token that cannot be put in a header: the client is not built, the
    error of the construction is raised, and no request is made. *)
Lemma raw_query_unencodable_token :
  let token := String (ascii_of_nat 116) (String (ascii_of_nat 246) "k") in
  let s := snd (configure Mock.local_env (Some token) ".logfire" None
                  (Mock.fresh (Mock.replying Mock.success_body))) in
  fst (_raw_query Mock.local_env "SELECT 1" s)
  = Raise (Foreign "UnicodeEncodeError") /\
  http_requests (log (snd (_raw_query Mock.local_env "SELECT 1" s))) = [] /\
  cache (snd (_raw_query Mock.local_env "SELECT 1" s)) = Some token.
Proof. intros token s. repeat split. Qed.

Lemma C10_retry_witness :
  let s := Mock.fresh (Mock.mkWorld [None; Some "later"]
                         (Raise (Foreign "ConnectError"))) in
  let s1 := snd (_get_token Mock.local_env s) in
  fst (_get_token Mock.local_env s)
  = Raise (LogfireConfigError no_token_message) /\
  exists s2,
    _get_token Mock.local_env s1 = (Ok "later", s2) /\
    cache s2 = Some "later" /\
    log s2 = [LoadToken None ".logfire"; LoadToken None ".logfire"].
Proof.
  intros s s1. split; [reflexivity|].
  assert (Hfirst : _get_token Mock.local_env s
                   = (Raise (LogfireConfigError no_token_message), s1))
    by reflexivity.
  destruct (C10_failure_not_memoized Mock.local_env s s1
              (LogfireConfigError no_token_message) eq_refl Hfirst)
    as (_ & res & s2 & Hget & Hlog & Hthen).
  destruct (Hthen "later" tt
              (Mock.mkWorld [] (Raise (Foreign "ConnectError"))) eq_refl)
    as (Hres & Hcache & _).
  exists s2. rewrite Hget, Hres. repeat split; assumption.
Defined.

(** ** Further properties of the module *)

Section MoreProperties.

Context {World Any Creds : Type} {collab : Collaborators World Any Creds}.
Variable env : Env.

Local Abbreviation State := (State World Any).

(** X1.  Importing the module raises [ImportError] exactly when [httpx]
    cannot be imported and [pyodide] is not loaded.  When the import
    succeeds, [_in_pyodide] is the presence of [pyodide] in [sys.modules],
    and outside pyodide [httpx] is bound, so the assertion of [_raw_query]
    holds. *)
Theorem X1_import_outcome (h : Host) :
  (import_dash h = Raise ImportError <->
   httpx_importable h = false /\ pyodide_in_sys_modules h = false) /\
  (forall e : Env,
      import_dash h = Ok e ->
      _in_pyodide e = pyodide_in_sys_modules h /\
      httpx e = httpx_importable h /\
      (_in_pyodide e = false -> httpx e = true)).
Proof.
  unfold import_dash.
  destruct (httpx_importable h), (pyodide_in_sys_modules h); simpl;
    (split; [split; [intros H; discriminate H || auto
                    | intros [H1 H2]; discriminate H1 || discriminate H2
                                      || reflexivity]
            | intros e He; try discriminate He; inversion He; subst e; simpl;
              repeat split; auto; intros H; discriminate H]).
Qed.


Lemma eq_str_false (v : JSON) (s : string) :
  v <> JStr s -> eq_str v s = false.
Proof.
  intros Hne. destruct v; simpl; try reflexivity.
  destruct (String.eqb_spec s0 s); [subst; congruence | reflexivity].
Qed.

(** X3.  [query] takes every status other than the string [success] for a
    failure: whatever else the ["status"] entry holds, it raises the
    [ValueError] built from the ["error_details"] string. *)
Theorem X3_query_other_status (sql : string) (s s' : State)
    (data status : JSON) (details : string) :
  _raw_query env sql s = (Ok data, s') ->
  getitem data "status" = Ok status ->
  status <> JStr "success" ->
  getitem data "error_details" = Ok (JStr details) ->
  query env sql s
  = (Raise (ValueError ("Error running query:" ++ newline ++ details)), s').
Proof.
  intros Hraw Hstatus Hne Hdetails. unfold query, bind, lift.
  rewrite Hraw, Hstatus. simpl. rewrite (eq_str_false _ _ Hne).
  now rewrite Hdetails.
Qed.

(** X4.  On a dict that lacks the key it reads, [query] raises [KeyError]
    with that key: ["status"] when there is no status, ["clickhouse_data"]
    when the status is [success] and the rows are missing, and
    ["error_details"] when the status is anything else and the details are
    missing. *)
Theorem X4_query_missing_key (sql : string) (s s' : State)
    (items : list (string * JSON)) :
  _raw_query env sql s = (Ok (JDict items), s') ->
  (lookup_item "status" items = None ->
   query env sql s = (Raise (KeyError "status"), s')) /\
  (lookup_item "status" items = Some (JStr "success") ->
   lookup_item "clickhouse_data" items = None ->
   query env sql s = (Raise (KeyError "clickhouse_data"), s')) /\
  (forall status,
      lookup_item "status" items = Some status ->
      status <> JStr "success" ->
      lookup_item "error_details" items = None ->
      query env sql s = (Raise (KeyError "error_details"), s')).
Proof.
  intros Hraw. unfold query, bind, lift. rewrite Hraw. simpl.
  repeat split.
  - intros Hs. now rewrite Hs.
  - intros Hs Hrows. rewrite Hs. simpl. now rewrite Hrows.
  - intros status Hs Hne Hd. rewrite Hs. rewrite (eq_str_false _ _ Hne).
    now rewrite Hd.
Qed.

(** X5.  When the body is not a dict (a list, a string, a number, a
    boolean, [None]), [query] raises [TypeError] at the first subscript. *)
Theorem X5_query_not_a_dict (sql : string) (s s' : State) (data : JSON) :
  _raw_query env sql s = (Ok data, s') ->
  (forall items, data <> JDict items) ->
  query env sql s = (Raise TypeError, s').
Proof.
  intros Hraw Hnd. unfold query, bind, lift. rewrite Hraw.
  destruct data; try reflexivity. now destruct (Hnd items).
Qed.

(** X6.  [query] adds no effect of its own: it leaves the state
    [_raw_query] leaves, whatever it returns or raises, and what
    [_raw_query] raises it raises unchanged. *)
Theorem X6_query_frame (sql : string) (s : State) :
  snd (query env sql s) = snd (_raw_query env sql s) /\
  (forall e, fst (_raw_query env sql s) = Raise e ->
             fst (query env sql s) = Raise e).
Proof.
  unfold query, bind, lift.
  destruct (_raw_query env sql s) as [[data|e0] s1]; simpl.
  - split; [|intros e He; discriminate He].
    destruct (getitem data "status") as [status|e1]; simpl; [|reflexivity].
    destruct (eq_str status "success"); simpl; [reflexivity|].
    destruct (getitem data "error_details"); reflexivity.
  - split; [reflexivity | auto].
Qed.

(** X7.  Of two [configure] calls in a row only the second counts: the
    result and the state are those of the second call alone (so a repeated
    call changes nothing more). *)
Theorem X7_configure_last_wins (t1 t2 : option string) (d1 d2 : Path)
    (u1 u2 : option string) (s : State) :
  configure env t2 d2 u2 (snd (configure env t1 d1 u1 s))
  = configure env t2 d2 u2 s.
Proof.
  unfold configure. destruct (_in_pyodide env); reflexivity.
Qed.

(** X8.  Outside pyodide, the first [_get_token] of a module that was never
    configured configures it with the defaults before it looks for a token:
    whether or not a token is found, [_configured] is true afterwards, the
    stored values are the defaults, and the loader was called once, with no
    explicit token and the directory [.logfire]. *)
Theorem X8_first_use_configures (s : State) :
  _in_pyodide env = false ->
  _configured s = false ->
  cache s = None ->
  let s1 := snd (_get_token env s) in
  _configured s1 = true /\ _token s1 = None /\ _data_dir s1 = ".logfire" /\
  _base_url s1 = None /\
  log s1 = (log s ++ [LoadToken None ".logfire"])%list.
Proof.
  intros Hloc Hcfg Hc. cbv zeta. rewrite get_token_local by assumption.
  rewrite Hc, Hcfg. simpl.
  destruct (fst (load_token None ".logfire" (world s))) as [[[t|] c]|e];
    simpl; repeat split.
Qed.

Lemma get_token_hit (s : State) (t : string) :
  cache s = Some t -> _get_token env s = (Ok t, s).
Proof.
  intros Hc. unfold _get_token, functools_cache, bind, gets, ret.
  now rewrite Hc.
Qed.

Lemma perform_keeps_memo (c : Call Any) (s : State) (t : string) :
  cache s = Some t ->
  is_configure c = false ->
  let s1 := perform env c s in
  cache s1 = Some t /\ token_loads (log s1) = token_loads (log s) /\
  _configured s1 = _configured s /\ _token s1 = _token s /\
  _data_dir s1 = _data_dir s /\ _base_url s1 = _base_url s.
Proof.
  intros Hc Hnc. cbv zeta.
  assert (Hraw : forall q,
             let s1 := snd (_raw_query env q s) in
             cache s1 = Some t /\ token_loads (log s1) = token_loads (log s) /\
             _configured s1 = _configured s /\ _token s1 = _token s /\
             _data_dir s1 = _data_dir s /\ _base_url s1 = _base_url s).
  { intros q. cbv zeta.
    destruct (_in_pyodide env) eqn:Hpy.
    { rewrite raw_query_in_pyodide by assumption. simpl. auto 10. }
    destruct (httpx env) eqn:Hx.
    - rewrite raw_query_local by assumption.
      rewrite (get_token_hit s t Hc). cbv zeta.
      destruct (AsyncClient _ (world s)); simpl; [auto 10|].
      unfold token_loads. rewrite filter_app. simpl. rewrite app_nil_r.
      auto 10.
    - unfold _raw_query. rewrite Hpy, Hx. simpl. auto 10. }
  destruct c; unfold perform; try discriminate Hnc.
  - rewrite (get_token_hit s t Hc). simpl. auto 10.
  - apply Hraw.
  - specialize (Hraw sql). cbv zeta in Hraw. unfold query, bind, lift.
    destruct (_raw_query env sql s) as [[data|e] s1]; simpl in *; auto.
    destruct (getitem data "status") as [status|e]; simpl; auto.
    destruct (eq_str status "success"); simpl; auto.
    destruct (getitem data "error_details"); simpl; auto.
  - unfold show.
    destruct (_in_pyodide env); [simpl; auto 10|].
    destruct (_in_jupyter env); unfold call;
      [destruct (display item (world s)) | destruct (print item (world s))];
      simpl; unfold token_loads; rewrite filter_app; simpl;
      rewrite app_nil_r; auto 10.
Qed.

(** X9.  Only [configure] invalidates the memoized token.  Through any
    sequence of calls without a [configure], in any environment, a memoized
    token stays memoized, the token loader is not called again, and the
    stored configuration is unchanged. *)
Theorem X9_memo_survives_calls (calls : list (Call Any)) (s : State)
    (t : string) :
  cache s = Some t ->
  forallb (fun c => negb (is_configure c)) calls = true ->
  let s1 := run env calls s in
  cache s1 = Some t /\ token_loads (log s1) = token_loads (log s) /\
  _configured s1 = _configured s /\ _token s1 = _token s /\
  _data_dir s1 = _data_dir s /\ _base_url s1 = _base_url s.
Proof.
  revert s. induction calls as [|c calls IH]; intros s Hc Hall; cbv zeta.
  - simpl. auto 10.
  - simpl in Hall. apply andb_prop in Hall. destruct Hall as [Hnc Hall].
    apply Bool.negb_true_iff in Hnc.
    destruct (perform_keeps_memo c s t Hc Hnc)
      as (Hc1 & Hl1 & Hg1 & Ht1 & Hd1 & Hu1).
    destruct (IH (perform env c s) Hc1 Hall)
      as (Hc2 & Hl2 & Hg2 & Ht2 & Hd2 & Hu2).
    unfold run in *. simpl.
    repeat split; congruence.
Qed.

(** X10.  In pyodide the module has no effect at all: from a state with
    nothing memoized, every sequence of calls leaves the state as it was,
    so no collaborator is called and nothing is stored. *)
Theorem X10_pyodide_no_effects (calls : list (Call Any)) (s : State) :
  _in_pyodide env = true ->
  cache s = None ->
  run env calls s = s.
Proof. intros Hpy Hc. now apply run_in_pyodide. Qed.

(** X11.  In every state a process reaches after the import, a token is
    memoized only outside pyodide, and as long as [_configured] is false the
    stored values are the defaults and no token is memoized. *)
Theorem X11_reachable_states (w : World) (calls : list (Call Any)) :
  let s : State := run env calls (initial_state w) in
  (_in_pyodide env = true -> cache s = None) /\
  (_configured s = false ->
   _token s = None /\ _data_dir s = ".logfire" /\ _base_url s = None /\
   cache s = None).
Proof.
  cbv zeta. apply (run_consistent env calls (initial_state w)).
  apply consistent_initial.
Qed.

Lemma get_token_log (s : State) :
  exists l, log (snd (_get_token env s)) = (log s ++ l)%list /\
            Forall dash_request l.
Proof.
  destruct (cache s) as [t|] eqn:Hc.
  - rewrite (get_token_hit s t Hc). exists []. simpl.
    now rewrite app_nil_r.
  - destruct (_in_pyodide env) eqn:Hpy.
    + rewrite get_token_in_pyodide by assumption. exists []. simpl.
      now rewrite app_nil_r.
    + rewrite get_token_local by assumption. rewrite Hc. cbv zeta.
      destruct (_configured s); simpl;
        destruct (fst (load_token _ _ _)) as [[[t|] c]|e]; simpl;
        eexists; (split; [reflexivity|]); repeat constructor.
Qed.

Lemma raw_query_log (q : string) (s : State) :
  exists l, log (snd (_raw_query env q s)) = (log s ++ l)%list /\
            Forall dash_request l.
Proof.
  destruct (_in_pyodide env) eqn:Hpy.
  { rewrite raw_query_in_pyodide by assumption. exists []. simpl.
    now rewrite app_nil_r. }
  destruct (httpx env) eqn:Hx.
  - rewrite raw_query_local by assumption.
    destruct (get_token_log s) as (l & Hl & Hok).
    destruct (_get_token env s) as [[token|e] s1]; simpl in Hl; cbv zeta.
    + destruct (AsyncClient _ (world s1)); simpl.
      * exists l. auto.
      * rewrite Hl, <- app_assoc. eexists. split; [reflexivity|].
        apply Forall_app. split; [exact Hok|].
        constructor; [|constructor]. simpl.
        exists token, (or_else (_base_url s1) LOGFIRE_BASE_URL), q. auto.
    + exists l. auto.
  - unfold _raw_query. rewrite Hpy, Hx. exists []. simpl.
    now rewrite app_nil_r.
Qed.

Lemma perform_log (c : Call Any) (s : State) :
  exists l, log (perform env c s) = (log s ++ l)%list /\
            Forall dash_request l.
Proof.
  destruct c; unfold perform.
  - exists []. rewrite app_nil_r. unfold configure.
    split; [destruct (_in_pyodide env); reflexivity | constructor].
  - apply get_token_log.
  - apply raw_query_log.
  - destruct (raw_query_log sql s) as (l & Hl & Hok). exists l.
    split; [|exact Hok]. rewrite <- Hl. unfold query, bind, lift.
    destruct (_raw_query env sql s) as [[data|e] s1]; simpl; [|reflexivity].
    destruct (getitem data "status") as [status|e]; simpl; [|reflexivity].
    destruct (eq_str status "success"); simpl; [reflexivity|].
    destruct (getitem data "error_details"); reflexivity.
  - unfold show. destruct (_in_pyodide env).
    + exists []. simpl. now rewrite app_nil_r.
    + destruct (_in_jupyter env); unfold call;
        [destruct (display item (world s)) | destruct (print item (world s))];
        eexists; (split; [reflexivity|]); repeat constructor.
Qed.

(** X12.  The module sends one kind of request only.  Every GET request in
    the log of a process, after any sequence of calls, carries exactly one
    header, [Authorization], goes to a URL ending in [/dash/query], and has
    exactly one parameter, [q]. *)
Theorem X12_only_dash_requests (w : World) (calls : list (Call Any)) :
  Forall dash_request (log (run env calls (initial_state w) : State)).
Proof.
  assert (H : forall s : State, Forall dash_request (log s) ->
                                Forall dash_request (log (run env calls s))).
  { induction calls as [|c calls IH]; intros s Hs; [exact Hs|].
    unfold run in *. simpl. apply IH.
    destruct (perform_log c s) as (l & Hl & Hok). rewrite Hl.
    apply Forall_app. auto. }
  apply H. constructor.
Qed.

Lemma get_token_memoizes (s s1 : State) (t : string) :
  _get_token env s = (Ok t, s1) -> cache s1 = Some t.
Proof.
  unfold _get_token, functools_cache, bind, gets, ret, modify.
  destruct (cache s) as [t0|] eqn:Hc.
  - intros H. inversion H; subst. exact Hc.
  - destruct (_get_token_body env s) as [[t0|e] s0]; intros H;
      inversion H; subst; reflexivity.
Qed.

(** X13.  A request that fails does not cost the token.  Outside pyodide,
    once the token has been obtained within [_raw_query], it is memoized
    when [_raw_query] ends, whether the request, the status check or the
    parsing of the body then succeeded or raised. *)
Theorem X13_token_kept_after_request (q : string) (s s1 : State)
    (t : string) :
  _in_pyodide env = false ->
  httpx env = true ->
  _get_token env s = (Ok t, s1) ->
  cache (snd (_raw_query env q s)) = Some t.
Proof.
  intros Hloc Hx Hget. rewrite raw_query_local by assumption.
  rewrite Hget. cbv zeta.
  destruct (AsyncClient _ (world s1)); simpl;
    now apply (get_token_memoizes s s1 t).
Qed.

Lemma query_keeps_state (sql : string) (s : State) :
  snd (query env sql s) = snd (_raw_query env sql s).
Proof.
  unfold query, bind, lift.
  destruct (_raw_query env sql s) as [[data|e] s1]; simpl; [|reflexivity].
  destruct (getitem data "status") as [status|e]; simpl; [|reflexivity].
  destruct (eq_str status "success"); simpl; [reflexivity|].
  destruct (getitem data "error_details"); reflexivity.
Qed.

Lemma get_token_log_cases (s : State) :
  log (snd (_get_token env s)) = log s \/
  exists tok dir,
    log (snd (_get_token env s)) = (log s ++ [LoadToken tok dir])%list.
Proof.
  destruct (cache s) as [t|] eqn:Hc.
  - rewrite (get_token_hit s t Hc). now left.
  - destruct (_in_pyodide env) eqn:Hpy.
    + rewrite get_token_in_pyodide by assumption. now left.
    + right. rewrite get_token_local by assumption. rewrite Hc. cbv zeta.
      destruct (_configured s); simpl;
        destruct (fst (load_token _ _ _)) as [[[t|] c]|e]; simpl;
        eexists; eexists; reflexivity.
Qed.

(** X14.  One [query] is at most one attempt: whatever is returned or
    raised, in any environment, the call adds to the log at most one call
    to the token loader and at most one GET request; nothing is retried. *)
Theorem X14_query_single_attempt (sql : string) (s : State) :
  exists l,
    log (snd (query env sql s)) = (log s ++ l)%list /\
    (length (token_loads l) <= 1)%nat /\
    (length (http_requests l) <= 1)%nat.
Proof.
  rewrite query_keeps_state.
  destruct (_in_pyodide env) eqn:Hpy.
  { rewrite raw_query_in_pyodide by assumption. exists []. simpl.
    rewrite app_nil_r. auto. }
  destruct (httpx env) eqn:Hx.
  - rewrite raw_query_local by assumption.
    pose proof (get_token_log_cases s) as Hlog.
    destruct (_get_token env s) as [[token|e] s1]; simpl in Hlog; cbv zeta.
    + destruct (AsyncClient _ (world s1)); simpl.
      * destruct Hlog as [Hl | (tok & dir & Hl)]; rewrite Hl.
        -- exists []. rewrite app_nil_r. simpl. auto.
        -- eexists. split; [reflexivity|]. simpl. auto.
      * destruct Hlog as [Hl | (tok & dir & Hl)]; rewrite Hl.
        -- eexists. split; [reflexivity|]. simpl. auto.
        -- rewrite <- app_assoc. eexists. split; [reflexivity|].
           simpl. auto.
    + simpl. destruct Hlog as [Hl | (tok & dir & Hl)]; rewrite Hl.
      * exists []. rewrite app_nil_r. simpl. auto.
      * eexists. split; [reflexivity|]. simpl. auto.
  - unfold _raw_query. rewrite Hpy, Hx. exists []. simpl.
    rewrite app_nil_r. auto.
Qed.

End MoreProperties.

(** ** The further properties on the scripted world *)


Lemma X3_pending_status_witness :
  let body := JDict [("status", JStr "pending");
                     ("error_details", JStr "try later")] in
  fst (query Mock.local_env "SELECT 1" (Mock.fresh (Mock.replying body)))
  = Raise (ValueError ("Error running query:" ++ newline ++ "try later")).
Proof.
  intros body.
  rewrite (X3_query_other_status Mock.local_env "SELECT 1"
             (Mock.fresh (Mock.replying body))
             (snd (_raw_query Mock.local_env "SELECT 1"
                     (Mock.fresh (Mock.replying body))))
             body (JStr "pending") "try later");
    try reflexivity.
  intros H. discriminate H.
Defined.

Lemma X4_missing_status_witness :
  let s := Mock.fresh (Mock.replying (JDict [("rows", JList [])])) in
  fst (query Mock.local_env "SELECT 1" s) = Raise (KeyError "status").
Proof.
  intros s.
  assert (Hraw : _raw_query Mock.local_env "SELECT 1" s
                 = (Ok (JDict [("rows", JList [])]),
                    snd (_raw_query Mock.local_env "SELECT 1" s)))
    by reflexivity.
  destruct (X4_query_missing_key Mock.local_env "SELECT 1" s _ _ Hraw)
    as (Hstatus & _).
  rewrite Hstatus; reflexivity.
Defined.

Lemma X5_list_body_witness :
  fst (query Mock.local_env "SELECT 1"
         (Mock.fresh (Mock.replying (JList [JInt 1]))))
  = Raise TypeError.
Proof.
  rewrite (X5_query_not_a_dict Mock.local_env "SELECT 1"
             (Mock.fresh (Mock.replying (JList [JInt 1])))
             (snd (_raw_query Mock.local_env "SELECT 1"
                     (Mock.fresh (Mock.replying (JList [JInt 1])))))
             (JList [JInt 1]));
    try reflexivity.
  intros items H. discriminate H.
Defined.

Lemma X8_first_use_witness :
  let s1 := snd (_get_token Mock.local_env
                   (Mock.fresh (Mock.mkWorld [] (Raise (Foreign "ConnectError")))))
  in
  _configured s1 = true /\ log s1 = [LoadToken None ".logfire"].
Proof.
  destruct (X8_first_use_configures Mock.local_env
              (Mock.fresh (Mock.mkWorld [] (Raise (Foreign "ConnectError"))))
              eq_refl eq_refl eq_refl) as (Hcfg & _ & _ & _ & Hlog).
  split; [exact Hcfg | exact Hlog].
Defined.

Lemma X9_memo_witness :
  let s := snd (_get_token Mock.local_env
                  (Mock.fresh (Mock.replying Mock.success_body))) in
  let s1 := run Mock.local_env
                [CallQuery "SELECT 1"; CallShow "rows"; CallGetToken] s in
  cache s1 = Some "tok" /\ token_loads (log s1) = [LoadToken None ".logfire"].
Proof.
  intros s s1.
  destruct (X9_memo_survives_calls Mock.local_env
              [CallQuery "SELECT 1"; CallShow "rows"; CallGetToken] s "tok"
              eq_refl eq_refl) as (Hcache & Hloads & _).
  split; [exact Hcache | exact Hloads].
Defined.

Lemma X10_pyodide_witness :
  run Mock.pyodide_env
      [CallConfigure (Some "secret") "dir" None; CallQuery "SELECT 1";
       CallShow "rows"; CallGetToken]
      (Mock.fresh (Mock.replying Mock.success_body))
  = Mock.fresh (Mock.replying Mock.success_body).
Proof.
  apply (X10_pyodide_no_effects (World:=Mock.World) (Any:=string)
           Mock.pyodide_env); reflexivity.
Defined.

Lemma X13_failed_request_witness :
  let s := Mock.fresh (Mock.mkWorld [Some "tok"] (Raise (Foreign "ConnectError")))
  in
  fst (_raw_query Mock.local_env "SELECT 1" s) = Raise (Foreign "ConnectError") /\
  cache (snd (_raw_query Mock.local_env "SELECT 1" s)) = Some "tok".
Proof.
  intros s. split; [reflexivity|].
  apply (X13_token_kept_after_request Mock.local_env "SELECT 1" s
           (snd (_get_token Mock.local_env s)) "tok"); reflexivity.
Defined.
